(** * DuckDuckGo web-search tool: embedding and verification

  Source: [packages/core/src/tools/duckduckgo-search.ts].

  The tool is embedded shallowly.  JavaScript strings are sequences of
  UTF-16 code units, the two imported helpers ([SchemaValidator.validate]
  and [getErrorMessage]) and the search client ([DDGS.text]) are not part
  of the tool's source and are taken as parameters.  The asynchronous
  [execute] method runs in a small monad that reads the provider, records
  the observable effects (provider calls, [console.error]) and completes
  either normally or abruptly, as a settled promise does. *)

From Stdlib Require Import List NArith String Ascii Bool Arith Lia.
Import ListNotations.

(* ------------------------------------------------------------------ *)
(** ** JavaScript strings *)

Module JsString.

(** A string value is its sequence of UTF-16 code units. *)
Definition jsstring : Type := list N.

(** ASCII literals of the source text. *)
Fixpoint lit (s : string) : jsstring :=
  match s with
  | EmptyString => []
  | String a s' => N_of_ascii a :: lit s'
  end.

(** The double quote (U+0022) and the line feed (U+000A), which the
    source's literals write with a backslash escape. *)
Definition DQ : jsstring := [34%N].
Definition NL : jsstring := [10%N].

(** [a === b] on two strings. *)
Fixpoint strict_eq (a b : jsstring) : bool :=
  match a, b with
  | [], [] => true
  | x :: a', y :: b' => N.eqb x y && strict_eq a' b'
  | _, _ => false
  end.

(** ToBoolean on a string: only the empty string is falsy. *)
Definition truthy (s : jsstring) : bool :=
  match s with
  | [] => false
  | _ :: _ => true
  end.

(** ToBoolean on a [string | null] value. *)
Definition truthy_nullable (v : option jsstring) : bool :=
  match v with
  | None => false
  | Some s => truthy s
  end.

(** [a || b] on strings. *)
Definition or_else (a b : jsstring) : jsstring :=
  if truthy a then a else b.

(** The code units [String.prototype.trim] strips: WhiteSpace (TAB, VT,
    FF, SP, NBSP, ZWNBSP and the category Zs) and LineTerminator (LF, CR,
    LS, PS). *)
Definition white_space_units : list N :=
  [9; 10; 11; 12; 13; 32; 160; 5760; 8232; 8233; 8239; 8287; 12288; 65279]%N.

Definition isWhiteSpace (c : N) : bool :=
  existsb (N.eqb c) white_space_units
  || (N.leb 8192 c && N.leb c 8202).

Fixpoint trimStart (s : jsstring) : jsstring :=
  match s with
  | [] => []
  | c :: s' => if isWhiteSpace c then trimStart s' else s
  end.

Definition trimEnd (s : jsstring) : jsstring :=
  rev (trimStart (rev s)).

Definition trim (s : jsstring) : jsstring :=
  trimEnd (trimStart s).

(** A string made of white space only (the empty string included). *)
Definition whitespace_only (s : jsstring) : bool :=
  forallb isWhiteSpace s.

(** Decimal digits of an array index, as a template literal prints it. *)
Fixpoint digits (d : Decimal.uint) : jsstring :=
  match d with
  | Decimal.Nil => []
  | Decimal.D0 d' => 48%N :: digits d'
  | Decimal.D1 d' => 49%N :: digits d'
  | Decimal.D2 d' => 50%N :: digits d'
  | Decimal.D3 d' => 51%N :: digits d'
  | Decimal.D4 d' => 52%N :: digits d'
  | Decimal.D5 d' => 53%N :: digits d'
  | Decimal.D6 d' => 54%N :: digits d'
  | Decimal.D7 d' => 55%N :: digits d'
  | Decimal.D8 d' => 56%N :: digits d'
  | Decimal.D9 d' => 57%N :: digits d'
  end.

Definition Number_toString (n : nat) : jsstring :=
  digits (Nat.to_uint n).

(** [parts.join(sep)]. *)
Fixpoint join (sep : jsstring) (parts : list jsstring) : jsstring :=
  match parts with
  | [] => []
  | [p] => p
  | p :: rest => p ++ sep ++ join sep rest
  end.

(** [s.startsWith(prefix)]. *)
Fixpoint startsWith (s prefix : jsstring) : bool :=
  match prefix, s with
  | [], _ => true
  | p :: prefix', c :: s' => N.eqb p c && startsWith s' prefix'
  | _ :: _, [] => false
  end.

(** [s.includes(needle)], which is what [toContain] of the unit tests asks
    of a string. *)
Fixpoint includes (s needle : jsstring) : bool :=
  startsWith s needle
  || match s with
     | [] => false
     | _ :: s' => includes s' needle
     end.

End JsString.
Import JsString.

(* ------------------------------------------------------------------ *)
(** ** Data model of the tool *)

(** [interface SearchResult]. *)
Record SearchResult : Type := mkSearchResult {
title : jsstring;
href : jsstring;
body : jsstring
}.

(** [interface DuckDuckGoSearchToolParams]. *)
Record DuckDuckGoSearchToolParams : Type := mkParams {
query : jsstring
}.

(** [interface DuckDuckGoSearchToolResult extends ToolResult]; the optional
  [sources] field is [None] when the object literal does not set it. *)
Record DuckDuckGoSearchToolResult : Type := mkResult {
llmContent : jsstring;
returnDisplay : jsstring;
sources : option (list SearchResult)
}.

(** The [AbortSignal] as far as the tool reads it. *)
Record AbortSignal : Type := mkSignal {
aborted : bool
}.

(** The parameter schema handed to [super(...)] by the constructor. *)
Inductive SchemaType : Type := Type_OBJECT | Type_STRING.

Record PropertySchema : Type := mkProperty {
prop_name : jsstring;
prop_type : SchemaType;
prop_description : jsstring
}.

Record Schema : Type := mkSchema {
schema_type : SchemaType;
properties : list PropertySchema;
required : list jsstring
}.

Definition schema_parameters : Schema :=
{| schema_type := Type_OBJECT;
   properties :=
     [ {| prop_name := lit "query";
          prop_type := Type_STRING;
          prop_description :=
            lit "The search query to find information on the web." |} ];
   required := [lit "query"] |}.

Definition Name : jsstring := lit "duckduckgo_web_search".

(** A thrown value: an [Error] object with its message, or anything else. *)
Inductive Thrown : Type :=
| ErrorObject (message : jsstring)
| OtherValue (shown : jsstring).

(** The argument of [DDGS.text]. *)
Record TextOptions : Type := mkTextOptions {
keywords : jsstring;
safesearch : jsstring;
maxResults : N
}.

(** How the promise returned by [DDGS.text] settles: fulfilled with a list
  of results or with [null]/[undefined] ([None]), or rejected. *)
Inductive Settled : Type :=
| Fulfilled (results : option (list SearchResult))
| Rejected (error : Thrown).

(* ------------------------------------------------------------------ *)
(** ** Effects of [execute] *)

Module Effects.

(** What an invocation does to the outside: a call of [DDGS.text] with its
    argument and the way the returned promise settled, or a line on the
    diagnostic channel. *)
Inductive Event : Type :=
| TextCall (options : TextOptions) (settled : Settled)
| ConsoleError (message : jsstring) (error : Thrown).

(** Normal or abrupt completion; for the [async] method, a fulfilled or a
    rejected promise. *)
Inductive Completion (A : Type) : Type :=
| Normal (value : A)
| Throw (error : Thrown).
Arguments Normal {A} value.
Arguments Throw {A} error.

(** The search client of the tool instance: how a call would settle. *)
Definition Provider : Type := TextOptions -> Settled.

(** A computation reads the provider and yields its completion together
    with the events it emitted, oldest first. *)
Definition M (A : Type) : Type := Provider -> Completion A * list Event.

Definition ret {A : Type} (a : A) : M A :=
  fun _ => (Normal a, []).

Definition bind {A B : Type} (m : M A) (k : A -> M B) : M B :=
  fun ddgs =>
    match m ddgs with
    | (Normal a, before) =>
        let (c, after) := k a ddgs in (c, before ++ after)
    | (Throw e, before) => (Throw e, before)
    end.

Definition throw {A : Type} (e : Thrown) : M A :=
  fun _ => (Throw e, []).

(** [try { block } catch (error) { handler }]. *)
Definition try_catch {A : Type} (block : M A) (handler : Thrown -> M A) : M A :=
  fun ddgs =>
    match block ddgs with
    | (Normal a, before) => (Normal a, before)
    | (Throw e, before) =>
        let (c, after) := handler e ddgs in (c, before ++ after)
    end.

(** [await this.ddgs.text(options)]. *)
Definition await_text (options : TextOptions) : M (option (list SearchResult)) :=
  fun ddgs =>
    match ddgs options with
    | Fulfilled results => (Normal results, [TextCall options (Fulfilled results)])
    | Rejected e => (Throw e, [TextCall options (Rejected e)])
    end.

Definition console_error (message : jsstring) (error : Thrown) : M unit :=
  fun _ => (Normal tt, [ConsoleError message error]).

(** The arguments of the provider calls among the events, in order. *)
Fixpoint provider_calls (events : list Event) : list TextOptions :=
  match events with
  | [] => []
  | TextCall options _ :: rest => options :: provider_calls rest
  | ConsoleError _ _ :: rest => provider_calls rest
  end.

(** The arguments of the [console.error] calls among the events, in order. *)
Fixpoint console_errors (events : list Event) : list (jsstring * Thrown) :=
  match events with
  | [] => []
  | TextCall _ _ :: rest => console_errors rest
  | ConsoleError message error :: rest => (message, error) :: console_errors rest
  end.

(** The provider was called and its promise was fulfilled with [results]. *)
Definition provider_fulfilled (events : list Event)
    (results : option (list SearchResult)) : Prop :=
  exists options, In (TextCall options (Fulfilled results)) events.

(** The provider was called and its promise was rejected with [e]. *)
Definition provider_rejected (events : list Event) (e : Thrown) : Prop :=
  exists options, In (TextCall options (Rejected e)) events.

End Effects.
Import Effects.

Declare Scope effects_scope.
Delimit Scope effects_scope with effects.
Notation "x <- m ;; k" := (bind m (fun x => k))
(at level 61, m at next level, right associativity) : effects_scope.
Notation "m ;; k" := (bind m (fun _ => k))
(at level 61, right associativity) : effects_scope.

(* ------------------------------------------------------------------ *)
(** ** The tool *)

Section Tool.

(** *** Validation *)

(** [SchemaValidator.validate], imported from [../utils/schemaValidator.js]:
    an error message, or [null]. *)
Variable SchemaValidator_validate :
  Schema -> DuckDuckGoSearchToolParams -> option jsstring.

Definition empty_query_message : jsstring :=
  lit "The 'query' parameter cannot be empty.".

Definition validateToolParams (params : DuckDuckGoSearchToolParams)
  : option jsstring :=
  let errors := SchemaValidator_validate schema_parameters params in
  if truthy_nullable errors then errors
  else if negb (truthy (query params))
          || strict_eq (trim (query params)) []
  then Some empty_query_message
  else None.

Definition getDescription (params : DuckDuckGoSearchToolParams) : jsstring :=
  lit "Searching the web with DuckDuckGo for: " ++ DQ ++ query params ++ DQ.

(** *** Execution *)

(** [getErrorMessage], imported from [../utils/errors.js]. *)
Variable getErrorMessage : Thrown -> jsstring.

(** [results.forEach(callback)] with the variables the callback updates
    passed through as [state]. *)
Fixpoint forEach {S : Type} (callback : S -> SearchResult -> nat -> S)
    (results : list SearchResult) (index : nat) (state : S) : S :=
  match results with
  | [] => state
  | result :: rest =>
      forEach callback rest (Datatypes.S index) (callback state result index)
  end.

(** The arrow function given to [forEach]; the state is
    [(formattedResults, sourceListFormatted)]. *)
Definition format_result (state : jsstring * list jsstring)
    (result : SearchResult) (index : nat) : jsstring * list jsstring :=
  let '(formattedResults, sourceListFormatted) := state in
  let title := or_else (title result) (lit "Untitled") in
  let url := or_else (href result) (lit "No URL") in
  let snippet := or_else (body result) (lit "No description") in
  let formattedResults :=
    formattedResults ++ (Number_toString (index + 1) ++ lit ". " ++ title ++ NL) in
  let formattedResults :=
    formattedResults ++ (lit "   URL: " ++ url ++ NL) in
  let formattedResults :=
    formattedResults ++ (lit "   Snippet: " ++ snippet ++ NL ++ NL) in
  (formattedResults,
   sourceListFormatted ++
     [lit "[" ++ Number_toString (index + 1) ++ lit "] " ++ title
        ++ lit " (" ++ url ++ lit ")"]).

Definition text_options (params : DuckDuckGoSearchToolParams) : TextOptions :=
  {| keywords := query params; safesearch := lit "off"; maxResults := 5 |}.

(** The [try]/[catch] statement of [execute]. *)
Definition search (params : DuckDuckGoSearchToolParams) (signal : AbortSignal)
  : M DuckDuckGoSearchToolResult :=
  (try_catch
     ((if aborted signal
       then throw (ErrorObject (lit "Search was cancelled"))
       else ret tt) ;;
      results <- await_text (text_options params) ;;
      let no_results :=
        {| llmContent :=
             lit "No search results found for query: " ++ DQ ++ query params ++ DQ;
           returnDisplay := lit "No information found.";
           sources := None |} in
      match results with
      | None => ret no_results
      | Some results =>
          if List.length results =? 0 then ret no_results
          else
            let formattedResults :=
              lit "DuckDuckGo search results for " ++ DQ ++ query params ++ DQ
                ++ lit ":" ++ NL ++ NL in
            let '(formattedResults, sourceListFormatted) :=
              forEach format_result results 0 (formattedResults, []) in
            let formattedResults :=
              formattedResults
                ++ ((NL ++ lit "Sources:" ++ NL) ++ join NL sourceListFormatted) in
            ret {| llmContent := formattedResults;
                   returnDisplay :=
                     lit "Search results for " ++ DQ ++ query params ++ DQ
                       ++ lit " returned.";
                   sources := Some results |}
      end)
     (fun error =>
        let errorMessage :=
          lit "Error during DuckDuckGo web search for query " ++ DQ
            ++ query params ++ DQ ++ lit ": " ++ getErrorMessage error in
        console_error errorMessage error ;;
        ret {| llmContent := lit "Error: " ++ errorMessage;
               returnDisplay := lit "Error performing DuckDuckGo web search.";
               sources := None |}))%effects.

Definition execute (params : DuckDuckGoSearchToolParams) (signal : AbortSignal)
  : M DuckDuckGoSearchToolResult :=
  match validateToolParams params with
  | Some validationError =>
      if truthy validationError
      then ret {| llmContent :=
                    lit "Error: Invalid parameters provided. Reason: "
                      ++ validationError;
                  returnDisplay := validationError;
                  sources := None |}
      else search params signal
  | None => search params signal
  end.

(** *** The result texts as the specification words them

    These definitions follow the specification, not the code; the theorems
    below compare them with what [execute] computes. *)

(** The results with their 1-based positions, in provider order. *)
Definition numbered (results : list SearchResult) : list (nat * SearchResult) :=
  combine (seq 1 (List.length results)) results.

(** The block of one result: position, title or Untitled, URL or No URL,
    snippet or No description. *)
Definition result_block (entry : nat * SearchResult) : jsstring :=
  let (i, result) := entry in
  Number_toString i ++ lit ". " ++ or_else (title result) (lit "Untitled") ++ NL
    ++ lit "   URL: " ++ or_else (href result) (lit "No URL") ++ NL
    ++ lit "   Snippet: " ++ or_else (body result) (lit "No description")
    ++ NL ++ NL.

(** A line of the source list written with the result's own title and href. *)
Definition source_line_raw (entry : nat * SearchResult) : jsstring :=
  let (i, result) := entry in
  lit "[" ++ Number_toString i ++ lit "] " ++ title result
    ++ lit " (" ++ href result ++ lit ")".

(** A line of the source list written with the title and URL as the block
    shows them, placeholders included. *)
Definition source_line_shown (entry : nat * SearchResult) : jsstring :=
  let (i, result) := entry in
  lit "[" ++ Number_toString i ++ lit "] " ++ or_else (title result) (lit "Untitled")
    ++ lit " (" ++ or_else (href result) (lit "No URL") ++ lit ")".

(** Header, one block per result, then the source list. *)
Definition listing (source_line : nat * SearchResult -> jsstring)
    (query : jsstring) (results : list SearchResult) : jsstring :=
  (lit "DuckDuckGo search results for " ++ DQ ++ query ++ DQ ++ lit ":" ++ NL ++ NL)
    ++ List.concat (map result_block (numbered results))
    ++ (NL ++ lit "Sources:" ++ NL)
    ++ join NL (map source_line (numbered results)).

Definition results_display (query : jsstring) : jsstring :=
  lit "Search results for " ++ DQ ++ query ++ DQ ++ lit " returned.".

(** The result for one or more provider results. *)
Definition results_found (source_line : nat * SearchResult -> jsstring)
    (query : jsstring) (results : list SearchResult) : DuckDuckGoSearchToolResult :=
  {| llmContent := listing source_line query results;
     returnDisplay := results_display query;
     sources := Some results |}.

(** The result for no provider results. *)
Definition nothing_found (query : jsstring) : DuckDuckGoSearchToolResult :=
  {| llmContent := lit "No search results found for query: " ++ DQ ++ query ++ DQ;
     returnDisplay := lit "No information found.";
     sources := None |}.

(** The result for a provider failure with the error [e]. *)
Definition provider_failure (query : jsstring) (e : Thrown) : DuckDuckGoSearchToolResult :=
  {| llmContent :=
       lit "Error: Error during DuckDuckGo web search for query " ++ DQ ++ query
         ++ DQ ++ lit ": " ++ getErrorMessage e;
     returnDisplay := lit "Error performing DuckDuckGo web search.";
     sources := None |}.

(** The result for parameters the validator rejects with the message [m]. *)
Definition invalid_parameters (m : jsstring) : DuckDuckGoSearchToolResult :=
  {| llmContent := lit "Error: Invalid parameters provided. Reason: " ++ m;
     returnDisplay := m;
     sources := None |}.

(** The error [execute] throws on a signal that is already aborted. *)
Definition cancelled : Thrown := ErrorObject (lit "Search was cancelled").

(** The text [execute] logs and embeds for the error [e]. *)
Definition error_message (query : jsstring) (e : Thrown) : jsstring :=
  lit "Error during DuckDuckGo web search for query " ++ DQ ++ query ++ DQ
    ++ lit ": " ++ getErrorMessage e.

(** The five ways an invocation can go, each with its result and events. *)
Inductive Outcome (params : DuckDuckGoSearchToolParams) (signal : AbortSignal)
    (ddgs : Provider)
  : Completion DuckDuckGoSearchToolResult * list Event -> Prop :=
| Invalid (m : jsstring) :
    validateToolParams params = Some m ->
    Outcome params signal ddgs (Normal (invalid_parameters m), [])
| Cancelled :
    validateToolParams params = None ->
    aborted signal = true ->
    Outcome params signal ddgs
      (Normal (provider_failure (query params) cancelled),
       [ConsoleError (error_message (query params) cancelled) cancelled])
| Failed (e : Thrown) :
    validateToolParams params = None ->
    aborted signal = false ->
    ddgs (text_options params) = Rejected e ->
    Outcome params signal ddgs
      (Normal (provider_failure (query params) e),
       [TextCall (text_options params) (Rejected e);
        ConsoleError (error_message (query params) e) e])
| NoResults (v : option (list SearchResult)) :
    validateToolParams params = None ->
    aborted signal = false ->
    ddgs (text_options params) = Fulfilled v ->
    v = None \/ v = Some [] ->
    Outcome params signal ddgs
      (Normal (nothing_found (query params)),
       [TextCall (text_options params) (Fulfilled v)])
| Results (results : list SearchResult) :
    validateToolParams params = None ->
    aborted signal = false ->
    ddgs (text_options params) = Fulfilled (Some results) ->
    results <> [] ->
    Outcome params signal ddgs
      (Normal (results_found source_line_shown (query params) results),
       [TextCall (text_options params) (Fulfilled (Some results))]).

(** *** Sample inputs

    The two results and the queries of the unit tests, a schema check that
    accepts everything, and an error printer that shows an [Error] by its
    message. *)

Definition accept_all (_ : Schema) (_ : DuckDuckGoSearchToolParams)
  : option jsstring := None.

Definition message_of (e : Thrown) : jsstring :=
  match e with
  | ErrorObject message => message
  | OtherValue shown => shown
  end.

Definition test_results : list SearchResult :=
  [ {| title := lit "Test Result 1";
       href := lit "https://example.com/1";
       body := lit "This is a test result snippet 1" |};
    {| title := lit "Test Result 2";
       href := lit "https://example.com/2";
       body := lit "This is a test result snippet 2" |} ].

(** A result whose title and href are empty strings. *)
Definition untitled_results : list SearchResult :=
  [ {| title := []; href := []; body := lit "A page without title" |} ].

Definition test_search : DuckDuckGoSearchToolParams := {| query := lit "test search" |}.
Definition empty_search : DuckDuckGoSearchToolParams := {| query := lit "empty search" |}.
Definition error_search : DuckDuckGoSearchToolParams := {| query := lit "error search" |}.
Definition blank_search : DuckDuckGoSearchToolParams := {| query := lit "   " |}.
Definition padded_search : DuckDuckGoSearchToolParams :=
  {| query := lit "  test search " |}.

Definition live_signal : AbortSignal := {| aborted := false |}.
Definition aborted_signal : AbortSignal := {| aborted := true |}.

Definition resolving (results : option (list SearchResult)) : Provider :=
  fun _ => Fulfilled results.
Definition rejecting (e : Thrown) : Provider :=
  fun _ => Rejected e.
Definition network_error : Thrown := ErrorObject (lit "Network error").

(** A provider that knows the test query only. *)
Definition test_provider : Provider :=
  fun options =>
    if strict_eq (keywords options) (lit "test search")
    then Fulfilled (Some test_results)
    else Rejected network_error.

(* ------------------------------------------------------------------ *)
(** ** Facts about strings *)

Lemma strict_eq_spec (a b : jsstring) : strict_eq a b = true <-> a = b.
Proof.
  revert b; induction a as [|x a IH]; intros [|y b]; simpl;
    try (split; [discriminate | congruence]); try tauto.
  rewrite andb_true_iff, N.eqb_eq, IH.
  split; [intros [-> ->]; reflexivity | intros E; inversion E; auto].
Qed.

Lemma strict_eq_nil (a : jsstring) : strict_eq a [] = negb (truthy a).
Proof. destruct a; reflexivity. Qed.

Lemma trimStart_shape (s : jsstring) :
  trimStart s = [] \/
  exists c t, trimStart s = c :: t /\ isWhiteSpace c = false.
Proof.
  induction s as [|c s IH]; simpl; [now left|].
  destruct (isWhiteSpace c) eqn:E; [exact IH|].
  right; exists c, s; auto.
Qed.

Lemma trimStart_nil_iff (s : jsstring) :
  trimStart s = [] <-> whitespace_only s = true.
Proof.
  induction s as [|c s IH]; simpl; [tauto|].
  destruct (isWhiteSpace c); simpl; [exact IH|].
  split; discriminate.
Qed.

Lemma whitespace_only_rev (s : jsstring) :
  whitespace_only (rev s) = whitespace_only s.
Proof.
  unfold whitespace_only.
  induction s as [|c s IH]; simpl; [reflexivity|].
  rewrite forallb_app, IH; simpl.
  rewrite andb_true_r; apply andb_comm.
Qed.

Lemma rev_nil_iff (A : Type) (l : list A) : rev l = [] <-> l = [].
Proof.
  split; intros H; [|subst; reflexivity].
  rewrite <- (rev_involutive l), H; reflexivity.
Qed.

(** What is left of a string after [trimStart] is white space only just
    when nothing is left. *)
Lemma whitespace_only_trimStart (s : jsstring) :
  whitespace_only (trimStart s) = true <-> trimStart s = [].
Proof.
  split; [|intros ->; reflexivity].
  destruct (trimStart_shape s) as [E | (c & t & E & Hc)]; [easy|].
  rewrite E; simpl; rewrite Hc; discriminate.
Qed.

(** [trim] leaves the empty string exactly on white-space-only input. *)
Lemma trim_nil_iff (s : jsstring) :
  trim s = [] <-> whitespace_only s = true.
Proof.
  unfold trim, trimEnd.
  etransitivity; [apply rev_nil_iff|].
  etransitivity; [apply trimStart_nil_iff|].
  rewrite whitespace_only_rev.
  etransitivity; [apply whitespace_only_trimStart|].
  apply trimStart_nil_iff.
Qed.


(** ** Facts about validation *)

(** Past the schema check the answer depends on the trimmed query only. *)
Lemma validateToolParams_after_schema (params : DuckDuckGoSearchToolParams) :
  truthy_nullable (SchemaValidator_validate schema_parameters params) = false ->
  validateToolParams params =
    if whitespace_only (query params) then Some empty_query_message else None.
Proof.
  intros Hs. unfold validateToolParams. rewrite Hs.
  rewrite strict_eq_nil.
  destruct (whitespace_only (query params)) eqn:W.
  - apply trim_nil_iff in W. rewrite W; simpl. now rewrite orb_true_r.
  - assert (T : trim (query params) <> []).
    { intros E. apply trim_nil_iff in E. congruence. }
    assert (Q : query params <> []).
    { intros E. rewrite E in W. discriminate. }
    destruct (query params); [congruence|].
    destruct (trim (n :: j)); [congruence|]. reflexivity.
Qed.

(** A message returned by the validator is never the empty string, so the
    truthiness test of [execute] and a test against [null] agree. *)
Lemma validateToolParams_truthy (params : DuckDuckGoSearchToolParams) (m : jsstring) :
  validateToolParams params = Some m -> truthy m = true.
Proof.
  unfold validateToolParams.
  destruct (SchemaValidator_validate schema_parameters params) as [e|] eqn:E; simpl.
  - destruct (truthy e) eqn:T.
    + intros H; inversion H; subst; exact T.
    + destruct (_ || _); intros H; inversion H; reflexivity.
  - destruct (_ || _); intros H; inversion H; reflexivity.
Qed.

(** ** Facts about execution *)

(** The loop of [execute] appends one block and one source line per result,
    numbered from [index + 1]. *)
Lemma forEach_format_result (results : list SearchResult) (index : nat)
    (formatted : jsstring) (lines : list jsstring) :
  forEach format_result results index (formatted, lines) =
    (formatted ++ List.concat (map result_block
          (combine (seq (index + 1) (List.length results)) results)),
     lines ++ map source_line_shown
          (combine (seq (index + 1) (List.length results)) results)).
Proof.
  revert index formatted lines.
  induction results as [|result rest IH]; intros index formatted lines.
  - simpl. now rewrite !app_nil_r.
  - cbn [forEach format_result List.length seq combine map List.concat].
    rewrite IH. cbn [Nat.add].
    unfold result_block at 2, source_line_shown at 2.
    f_equal; repeat rewrite <- app_assoc; reflexivity.
Qed.

Ltac run_search :=
  unfold search, try_catch, bind, await_text, throw, ret, console_error.

Lemma execute_invalid (params : DuckDuckGoSearchToolParams)
    (signal : AbortSignal) (ddgs : Provider) (m : jsstring) :
  validateToolParams params = Some m ->
  execute params signal ddgs = (Normal (invalid_parameters m), []).
Proof.
  intros H. unfold execute.
  rewrite H, (validateToolParams_truthy params m H). reflexivity.
Qed.

Lemma execute_valid (params : DuckDuckGoSearchToolParams) (signal : AbortSignal) :
  validateToolParams params = None ->
  execute params signal = search params signal.
Proof. intros H. unfold execute. now rewrite H. Qed.

Lemma search_aborted (params : DuckDuckGoSearchToolParams)
    (signal : AbortSignal) (ddgs : Provider) :
  aborted signal = true ->
  search params signal ddgs =
    (Normal (provider_failure (query params) cancelled),
     [ConsoleError (error_message (query params) cancelled) cancelled]).
Proof. intros H. run_search. rewrite H. reflexivity. Qed.

Lemma search_rejected (params : DuckDuckGoSearchToolParams)
    (signal : AbortSignal) (ddgs : Provider) (e : Thrown) :
  aborted signal = false ->
  ddgs (text_options params) = Rejected e ->
  search params signal ddgs =
    (Normal (provider_failure (query params) e),
     [TextCall (text_options params) (Rejected e);
      ConsoleError (error_message (query params) e) e]).
Proof. intros Ha Hd. run_search. rewrite Ha, Hd. reflexivity. Qed.

Lemma search_null (params : DuckDuckGoSearchToolParams)
    (signal : AbortSignal) (ddgs : Provider) :
  aborted signal = false ->
  ddgs (text_options params) = Fulfilled None ->
  search params signal ddgs =
    (Normal (nothing_found (query params)),
     [TextCall (text_options params) (Fulfilled None)]).
Proof. intros Ha Hd. run_search. rewrite Ha, Hd. reflexivity. Qed.

Lemma search_empty (params : DuckDuckGoSearchToolParams)
    (signal : AbortSignal) (ddgs : Provider) :
  aborted signal = false ->
  ddgs (text_options params) = Fulfilled (Some []) ->
  search params signal ddgs =
    (Normal (nothing_found (query params)),
     [TextCall (text_options params) (Fulfilled (Some []))]).
Proof. intros Ha Hd. run_search. rewrite Ha, Hd. reflexivity. Qed.

Lemma search_results (params : DuckDuckGoSearchToolParams)
    (signal : AbortSignal) (ddgs : Provider) (results : list SearchResult) :
  aborted signal = false ->
  ddgs (text_options params) = Fulfilled (Some results) ->
  results <> [] ->
  search params signal ddgs =
    (Normal (results_found source_line_shown (query params) results),
     [TextCall (text_options params) (Fulfilled (Some results))]).
Proof.
  intros Ha Hd Hne. run_search. rewrite Ha, Hd.
  destruct results as [|result rest]; [congruence|].
  cbn [List.length Nat.eqb fst snd app].
  rewrite forEach_format_result.
  unfold results_found, listing, results_display, numbered.
  cbn [Nat.add app]. repeat rewrite <- app_assoc. reflexivity.
Qed.

(** Every invocation follows one of the five paths. *)
Lemma execute_outcome (params : DuckDuckGoSearchToolParams)
    (signal : AbortSignal) (ddgs : Provider) :
  Outcome params signal ddgs (execute params signal ddgs).
Proof.
  destruct (validateToolParams params) as [m|] eqn:V.
  { rewrite (execute_invalid params signal ddgs m V). now constructor. }
  rewrite (execute_valid params signal V).
  destruct (aborted signal) eqn:A.
  { rewrite (search_aborted params signal ddgs A). now constructor. }
  destruct (ddgs (text_options params)) as [[results|]|e] eqn:D.
  - destruct results as [|result rest].
    + rewrite (search_empty params signal ddgs A D).
      apply NoResults; auto.
    + rewrite (search_results params signal ddgs (result :: rest) A D)
        by discriminate.
      apply Results; auto; discriminate.
  - rewrite (search_null params signal ddgs A D).
    apply NoResults; auto.
  - rewrite (search_rejected params signal ddgs e A D).
    now apply Failed.
Qed.

(** A provider call among the events of an invocation was made on valid
    parameters and a live signal, with the options of [text_options], and
    settled as the provider settles them. *)
Lemma text_call_inv (params : DuckDuckGoSearchToolParams)
    (signal : AbortSignal) (ddgs : Provider)
    (options : TextOptions) (settled : Settled) :
  In (TextCall options settled) (snd (execute params signal ddgs)) ->
  validateToolParams params = None /\
  aborted signal = false /\
  options = text_options params /\
  ddgs (text_options params) = settled.
Proof.
  destruct (execute_outcome params signal ddgs) as [m V|V A|e V A D|v V A D E|rs V A D E];
    simpl; intros H;
    repeat (destruct H as [H|H]; try discriminate H; try contradiction);
    inversion H; subst; auto.
Qed.

Lemma provider_fulfilled_inv (params : DuckDuckGoSearchToolParams)
    (signal : AbortSignal) (ddgs : Provider)
    (results : option (list SearchResult)) :
  provider_fulfilled (snd (execute params signal ddgs)) results ->
  validateToolParams params = None /\
  aborted signal = false /\
  ddgs (text_options params) = Fulfilled results.
Proof.
  intros [options H]. apply text_call_inv in H. tauto.
Qed.

Lemma provider_rejected_inv (params : DuckDuckGoSearchToolParams)
    (signal : AbortSignal) (ddgs : Provider) (e : Thrown) :
  provider_rejected (snd (execute params signal ddgs)) e ->
  validateToolParams params = None /\
  aborted signal = false /\
  ddgs (text_options params) = Rejected e.
Proof.
  intros [options H]. apply text_call_inv in H. tauto.
Qed.

(* ------------------------------------------------------------------ *)
(** ** The execution contract *)

(** C1, as amended: when the parameters pass validation and the provider
    call is fulfilled with one or more results, [execute] resolves to a
    result whose [llmContent] is the header, one block per result in
    provider order numbered from 1, and the source list, each source line
    showing the title and URL with the same placeholders as the block
    (Untitled, No URL); [returnDisplay] is the fixed sentence with the query
    and [sources] is the provider's list itself. *)
Theorem execute_results_listing (params : DuckDuckGoSearchToolParams)
    (signal : AbortSignal) (ddgs : Provider) (results : list SearchResult) :
  validateToolParams params = None ->
  provider_fulfilled (snd (execute params signal ddgs)) (Some results) ->
  results <> [] ->
  exists r,
    fst (execute params signal ddgs) = Normal r /\
    llmContent r = listing source_line_shown (query params) results /\
    returnDisplay r =
      lit "Search results for " ++ DQ ++ query params ++ DQ ++ lit " returned." /\
    sources r = Some results.
Proof.
  intros _ Hp Hne.
  destruct (provider_fulfilled_inv params signal ddgs (Some results) Hp)
    as (V & A & D).
  rewrite (execute_valid params signal V),
    (search_results params signal ddgs results A D Hne).
  eexists; repeat split.
Qed.

(** C2: the result of every invocation carries [sources] equal to a list
    exactly when the parameters are valid, the signal is live and the
    provider answers the call for the query with that list, the list not
    being empty; this is also exactly when the events of the invocation
    show a provider call fulfilled with that non-empty list.  After a
    validation error, on an aborted signal, and when the provider rejects
    the call or fulfils it with an empty list or with null, the field is
    absent. *)
Theorem sources_present_iff_results (params : DuckDuckGoSearchToolParams)
    (signal : AbortSignal) (ddgs : Provider) :
  exists r,
    fst (execute params signal ddgs) = Normal r /\
    (forall results,
        sources r = Some results <->
        validateToolParams params = None
        /\ aborted signal = false
        /\ ddgs {| keywords := query params; safesearch := lit "off";
                   maxResults := 5 |} = Fulfilled (Some results)
        /\ results <> []) /\
    (forall results,
        sources r = Some results <->
        provider_fulfilled (snd (execute params signal ddgs)) (Some results)
        /\ results <> []) /\
    (validateToolParams params <> None -> sources r = None) /\
    (aborted signal = true -> sources r = None) /\
    (forall e,
        ddgs {| keywords := query params; safesearch := lit "off";
                maxResults := 5 |} = Rejected e ->
        sources r = None) /\
    (ddgs {| keywords := query params; safesearch := lit "off";
             maxResults := 5 |} = Fulfilled (Some []) ->
     sources r = None) /\
    (ddgs {| keywords := query params; safesearch := lit "off";
             maxResults := 5 |} = Fulfilled None ->
     sources r = None) /\
    ((exists e, provider_rejected (snd (execute params signal ddgs)) e) ->
     sources r = None) /\
    (provider_fulfilled (snd (execute params signal ddgs)) (Some []) ->
     sources r = None) /\
    (provider_fulfilled (snd (execute params signal ddgs)) None ->
     sources r = None).
Proof.
  pose proof (execute_outcome params signal ddgs) as O.
  pose proof (provider_fulfilled_inv params signal ddgs) as InvF.
  pose proof (provider_rejected_inv params signal ddgs) as InvR.
  change {| keywords := query params; safesearch := lit "off"; maxResults := 5 |}
    with (text_options params).
  assert (absent : forall r : DuckDuckGoSearchToolResult,
    sources r = None ->
    (forall results,
        validateToolParams params = None /\ aborted signal = false
        /\ ddgs (text_options params) = Fulfilled (Some results) ->
        results = []) ->
    (forall results,
        sources r = Some results <->
        validateToolParams params = None /\ aborted signal = false
        /\ ddgs (text_options params) = Fulfilled (Some results)
        /\ results <> []) /\
    (forall results,
        sources r = Some results <->
        provider_fulfilled (snd (execute params signal ddgs)) (Some results)
        /\ results <> [])).
  { intros r Hr Hno. split; intros results; rewrite Hr;
      (split; [discriminate|]).
    - intros (V & A & D & Hne). exfalso. apply Hne, Hno. auto.
    - intros [Hp Hne]. exfalso. apply Hne, Hno, InvF, Hp. }
  destruct O as [m V|V A|e V A D|v V A D E|rs V A D E]; eexists;
    (split; [reflexivity|]); cbn [fst snd] in *.
  - apply (proj1 (and_assoc _ _ _)). split; [apply absent; [reflexivity|]
           | repeat apply conj; intros; reflexivity].
    intros results (V' & _). congruence.
  - apply (proj1 (and_assoc _ _ _)). split; [apply absent; [reflexivity|]
           | repeat apply conj; intros; reflexivity].
    intros results (_ & A' & _). congruence.
  - apply (proj1 (and_assoc _ _ _)). split; [apply absent; [reflexivity|]
           | repeat apply conj; intros; reflexivity].
    intros results (_ & _ & D'). congruence.
  - apply (proj1 (and_assoc _ _ _)). split; [apply absent; [reflexivity|]
           | repeat apply conj; intros; reflexivity].
    intros results (_ & _ & D'). destruct E; subst v; congruence.
  - repeat apply conj.
    + intros results; simpl; split.
      * intros H; inversion H; subst results. auto.
      * intros (_ & _ & D' & _). congruence.
    + intros results; simpl; split.
      * intros H; inversion H; subst results. split; [|assumption].
        exists (text_options params). now left.
      * intros [Hp _]. apply InvF in Hp. destruct Hp as (_ & _ & D').
        congruence.
    + congruence.
    + congruence.
    + intros e D'. congruence.
    + intros D'. congruence.
    + intros D'. congruence.
    + intros [e Hr]. apply InvR in Hr. destruct Hr as (_ & _ & D').
      congruence.
    + intros Hp. apply InvF in Hp. destruct Hp as (_ & _ & D').
      congruence.
    + intros Hp. apply InvF in Hp. destruct Hp as (_ & _ & D').
      congruence.
Qed.

(** C3: when the parameters are valid and the provider call is rejected
    with an error [e], [execute] still completes normally; its result has
    the error text with the query and the message of [e] as [llmContent],
    the fixed failure sentence as [returnDisplay], and no [sources]. *)
Theorem provider_failure_absorbed (params : DuckDuckGoSearchToolParams)
    (signal : AbortSignal) (ddgs : Provider) (e : Thrown) :
  validateToolParams params = None ->
  provider_rejected (snd (execute params signal ddgs)) e ->
  exists r,
    fst (execute params signal ddgs) = Normal r /\
    llmContent r =
      lit "Error: Error during DuckDuckGo web search for query " ++ DQ
        ++ query params ++ DQ ++ lit ": " ++ getErrorMessage e /\
    returnDisplay r = lit "Error performing DuckDuckGo web search." /\
    sources r = None.
Proof.
  intros _ Hp.
  destruct (provider_rejected_inv params signal ddgs e Hp) as (V & A & D).
  rewrite (execute_valid params signal V),
    (search_rejected params signal ddgs e A D).
  eexists; repeat split.
Qed.

(** C4: for parameters that pass the schema check, a query that is not
    empty after trimming is accepted, and an empty or white-space-only
    query is answered with the fixed message. *)
Theorem validateToolParams_query (params : DuckDuckGoSearchToolParams) :
  SchemaValidator_validate schema_parameters params = None ->
  (trim (query params) <> [] -> validateToolParams params = None) /\
  (query params = [] \/ whitespace_only (query params) = true ->
   validateToolParams params =
     Some (lit "The 'query' parameter cannot be empty.")).
Proof.
  intros Hs.
  assert (Hf : truthy_nullable
                 (SchemaValidator_validate schema_parameters params) = false)
    by now rewrite Hs.
  rewrite (validateToolParams_after_schema params Hf).
  split.
  - intros T. destruct (whitespace_only (query params)) eqn:W; [|reflexivity].
    apply trim_nil_iff in W. contradiction.
  - intros [E|W]; [rewrite E|rewrite W]; reflexivity.
Qed.

(** C5: with valid parameters and a signal already aborted at entry, the
    provider is not called and the result is the provider-failure result
    for the cancellation error, with the same fixed [returnDisplay]. *)
Theorem aborted_signal_is_provider_failure (params : DuckDuckGoSearchToolParams)
    (signal : AbortSignal) (ddgs : Provider) :
  validateToolParams params = None ->
  aborted signal = true ->
  provider_calls (snd (execute params signal ddgs)) = [] /\
  fst (execute params signal ddgs) =
    Normal (provider_failure (query params)
              (ErrorObject (lit "Search was cancelled"))) /\
  exists r,
    fst (execute params signal ddgs) = Normal r /\
    returnDisplay r = lit "Error performing DuckDuckGo web search." /\
    sources r = None.
Proof.
  intros V A.
  rewrite (execute_valid params signal V), (search_aborted params signal ddgs A).
  repeat split. eexists; repeat split.
Qed.

(** C6: when the validator rejects the parameters with a message [m],
    [execute] returns at once: [llmContent] is the invalid-parameters
    prefix followed by [m], [returnDisplay] is [m], there are no [sources],
    and no provider call (indeed no effect at all) is made. *)
Theorem invalid_parameters_returned (params : DuckDuckGoSearchToolParams)
    (signal : AbortSignal) (ddgs : Provider) (m : jsstring) :
  validateToolParams params = Some m ->
  execute params signal ddgs =
    (Normal {| llmContent :=
                 lit "Error: Invalid parameters provided. Reason: " ++ m;
               returnDisplay := m;
               sources := None |},
     []) /\
  provider_calls (snd (execute params signal ddgs)) = [].
Proof.
  intros V. rewrite (execute_invalid params signal ddgs m V). split; reflexivity.
Qed.

(** C7: an invocation with valid parameters and a live signal calls the
    provider exactly once, with the query as keywords, safe search off and
    a result cap of 5, whatever the query is. *)
Theorem provider_called_once_with_cap (params : DuckDuckGoSearchToolParams)
    (signal : AbortSignal) (ddgs : Provider) :
  validateToolParams params = None ->
  aborted signal = false ->
  provider_calls (snd (execute params signal ddgs)) =
    [ {| keywords := query params; safesearch := lit "off"; maxResults := 5 |} ].
Proof.
  intros V A.
  destruct (execute_outcome params signal ddgs) as [m V'|V' A'|e _ _ D|v _ _ D E|rs _ _ D E];
    try congruence; reflexivity.
Qed.

(** C8: when the parameters are valid and the provider call is fulfilled
    with an empty list, the result has exactly the no-results text with the
    query, the fixed no-information sentence, and no [sources]. *)
Theorem empty_results_outcome (params : DuckDuckGoSearchToolParams)
    (signal : AbortSignal) (ddgs : Provider) :
  validateToolParams params = None ->
  provider_fulfilled (snd (execute params signal ddgs)) (Some []) ->
  fst (execute params signal ddgs) =
    Normal {| llmContent :=
                lit "No search results found for query: " ++ DQ
                  ++ query params ++ DQ;
              returnDisplay := lit "No information found.";
              sources := None |}.
Proof.
  intros _ Hp.
  destruct (provider_fulfilled_inv params signal ddgs (Some []) Hp)
    as (V & A & D).
  rewrite (execute_valid params signal V),
    (search_empty params signal ddgs A D).
  reflexivity.
Qed.

(** C9: two invocations with the same query string whose provider calls
    are fulfilled with the same value resolve to results with identical
    [llmContent] and identical [returnDisplay], whatever the signals and
    the providers otherwise are. *)
Theorem execute_deterministic
    (params1 params2 : DuckDuckGoSearchToolParams)
    (signal1 signal2 : AbortSignal) (ddgs1 ddgs2 : Provider)
    (v : option (list SearchResult)) :
  query params1 = query params2 ->
  provider_fulfilled (snd (execute params1 signal1 ddgs1)) v ->
  provider_fulfilled (snd (execute params2 signal2 ddgs2)) v ->
  exists r1 r2,
    fst (execute params1 signal1 ddgs1) = Normal r1 /\
    fst (execute params2 signal2 ddgs2) = Normal r2 /\
    llmContent r1 = llmContent r2 /\
    returnDisplay r1 = returnDisplay r2.
Proof.
  intros Q H1 H2.
  apply provider_fulfilled_inv in H1, H2.
  destruct H1 as (V1 & A1 & D1), H2 as (V2 & A2 & D2).
  rewrite (execute_valid params1 signal1 V1), (execute_valid params2 signal2 V2).
  destruct v as [[|result rest]|].
  - rewrite (search_empty params1 signal1 ddgs1 A1 D1),
      (search_empty params2 signal2 ddgs2 A2 D2), Q.
    do 2 eexists; repeat split.
  - rewrite (search_results params1 signal1 ddgs1 (result :: rest) A1 D1),
      (search_results params2 signal2 ddgs2 (result :: rest) A2 D2), Q
      by discriminate.
    do 2 eexists; repeat split.
  - rewrite (search_null params1 signal1 ddgs1 A1 D1),
      (search_null params2 signal2 ddgs2 A2 D2), Q.
    do 2 eexists; repeat split.
Qed.

(** C10: when the provider call is fulfilled with null or undefined in
    place of a list, [execute] completes normally with the no-results text,
    the no-information sentence and no [sources], which is the very result
    it gives when the provider answers the same call with an empty list. *)
Theorem null_results_outcome (params : DuckDuckGoSearchToolParams)
    (signal : AbortSignal) (ddgs : Provider) :
  provider_fulfilled (snd (execute params signal ddgs)) None ->
  fst (execute params signal ddgs) =
    Normal {| llmContent :=
                lit "No search results found for query: " ++ DQ
                  ++ query params ++ DQ;
              returnDisplay := lit "No information found.";
              sources := None |} /\
  fst (execute params signal ddgs) =
    fst (execute params signal (fun _ => Fulfilled (Some []))).
Proof.
  intros Hp.
  destruct (provider_fulfilled_inv params signal ddgs None Hp) as (V & A & D).
  rewrite !(execute_valid params signal V),
    (search_null params signal ddgs A D),
    (search_empty params signal (fun _ => Fulfilled (Some [])) A eq_refl).
  split; reflexivity.
Qed.

(** Where every title and href is a non-empty string, the source list
    written with the raw fields and the one written with the shown fields
    are the same text. *)
Lemma listing_raw_agrees (query : jsstring) (results : list SearchResult) :
  Forall (fun r => title r <> [] /\ href r <> []) results ->
  listing source_line_raw query results = listing source_line_shown query results.
Proof.
  intros H. unfold listing, numbered. do 4 f_equal.
  generalize 1 as i. induction H as [|r rest [Ht Hh] _ IH]; intros i.
  - reflexivity.
  - cbn [List.length seq combine map]. rewrite (IH (S i)). f_equal.
    unfold source_line_raw, source_line_shown, or_else.
    destruct (title r); [congruence|]. destruct (href r); [congruence|].
    reflexivity.
Qed.

(* ------------------------------------------------------------------ *)
(** ** Further properties of the tool *)

(** *** Substrings *)

Lemma startsWith_spec (s prefix : jsstring) :
  startsWith s prefix = true <-> exists post, s = prefix ++ post.
Proof.
  revert s. induction prefix as [|p prefix IH]; intros s.
  - split; [intros _; now exists s | intros _; destruct s; reflexivity].
  - destruct s as [|c s]; simpl.
    + split; [discriminate | intros [post E]; discriminate E].
    + rewrite andb_true_iff, N.eqb_eq, IH. split.
      * intros [-> [post ->]]. now exists post.
      * intros [post E]. inversion E; subst. split; [reflexivity|now exists post].
Qed.

Lemma includes_spec (s needle : jsstring) :
  includes s needle = true <-> exists pre post, s = pre ++ needle ++ post.
Proof.
  induction s as [|c s IH].
  - cbn [includes]. rewrite orb_false_r, startsWith_spec. split.
    + intros [post E]. now exists [], post.
    + intros (pre & post & E). symmetry in E.
      apply app_eq_nil in E. destruct E as [-> E]. now exists post.
  - cbn [includes]. rewrite orb_true_iff, startsWith_spec, IH. split.
    + intros [[post E]|(pre & post & E)].
      * now exists [], post.
      * exists (c :: pre), post. now rewrite E.
    + intros ([|c' pre] & post & E).
      * left. now exists post.
      * right. inversion E; subst. now exists pre, post.
Qed.

Lemma concat_map_split (A : Type) (f : A -> jsstring) (l1 l2 : list A) (x : A) :
  List.concat (map f (l1 ++ x :: l2)) =
    List.concat (map f l1) ++ f x ++ List.concat (map f l2).
Proof.
  rewrite map_app, concat_app. reflexivity.
Qed.

Lemma join_split (sep x : jsstring) (parts : list jsstring) :
  In x parts -> exists pre post, join sep parts = pre ++ x ++ post.
Proof.
  induction parts as [|p rest IH]; [contradiction|].
  intros [E|H].
  - subst p. destruct rest as [|q rest].
    + exists [], []. simpl. now rewrite app_nil_r.
    + exists [], (sep ++ join sep (q :: rest)). reflexivity.
  - destruct rest as [|q rest]; [contradiction|].
    destruct (IH H) as (pre & post & E).
    exists (p ++ sep ++ pre), post.
    change (join sep (p :: q :: rest)) with (p ++ sep ++ join sep (q :: rest)).
    rewrite E. now rewrite <- !app_assoc.
Qed.

(** The result at index [i] is numbered [i + 1]. *)
Lemma numbered_nth (results : list SearchResult) (i k : nat) (r : SearchResult) :
  nth_error results i = Some r ->
  In (k + i, r) (combine (seq k (List.length results)) results).
Proof.
  revert i k. induction results as [|x rest IH]; intros i k H.
  - destruct i; discriminate H.
  - destruct i as [|i]; simpl in H |- *.
    + inversion H; subst. left. now rewrite Nat.add_0_r.
    + right. replace (k + S i) with (S k + i) by lia. now apply IH.
Qed.

(** The block and the source line of every numbered result are parts of
    the listing. *)
Lemma listing_parts (source_line : nat * SearchResult -> jsstring)
    (q : jsstring) (results : list SearchResult) (entry : nat * SearchResult) :
  In entry (numbered results) ->
  (exists pre post, listing source_line q results = pre ++ result_block entry ++ post) /\
  (exists pre post, listing source_line q results = pre ++ source_line entry ++ post).
Proof.
  intros H. unfold listing. split.
  - destruct (in_split _ _ H) as (l1 & l2 & E).
    exists ((lit "DuckDuckGo search results for " ++ DQ ++ q ++ DQ ++ lit ":"
               ++ NL ++ NL) ++ List.concat (map result_block l1)).
    exists (List.concat (map result_block l2) ++ (NL ++ lit "Sources:" ++ NL)
              ++ join NL (map source_line (numbered results))).
    rewrite E at 1. rewrite concat_map_split.
    repeat rewrite <- app_assoc. reflexivity.
  - destruct (join_split NL (source_line entry)
                (map source_line (numbered results))) as (pre & post & E).
    { now apply in_map. }
    exists ((lit "DuckDuckGo search results for " ++ DQ ++ q ++ DQ ++ lit ":"
               ++ NL ++ NL)
              ++ List.concat (map result_block (numbered results))
              ++ (NL ++ lit "Sources:" ++ NL) ++ pre).
    exists post.
    rewrite E. repeat rewrite <- app_assoc. reflexivity.
Qed.

(** *** Validation *)

(** X1: the validator accepts exactly when the schema check reports nothing
    (null, or the empty string, which the code treats alike) and the query
    has a code unit that is not white space. *)
Theorem validateToolParams_accepts_iff (params : DuckDuckGoSearchToolParams) :
  validateToolParams params = None <->
  truthy_nullable (SchemaValidator_validate schema_parameters params) = false
  /\ whitespace_only (query params) = false.
Proof.
  destruct (truthy_nullable (SchemaValidator_validate schema_parameters params))
    eqn:T.
  - unfold validateToolParams. rewrite T.
    destruct (SchemaValidator_validate schema_parameters params);
      [|discriminate T].
    split; [discriminate | intros [H _]; discriminate H].
  - rewrite (validateToolParams_after_schema params T).
    destruct (whitespace_only (query params)); split;
      try discriminate; try tauto.
    intros [_ H]; discriminate H.
Qed.

(** X2: a message of the validator is never the empty string, and it is
    either the message of the schema check, passed on as it is, or, when
    the schema check reports nothing and the query is white space only,
    the fixed empty-query message. *)
Theorem validation_message_origin (params : DuckDuckGoSearchToolParams)
    (m : jsstring) :
  validateToolParams params = Some m ->
  m <> [] /\
  (SchemaValidator_validate schema_parameters params = Some m \/
   truthy_nullable (SchemaValidator_validate schema_parameters params) = false
   /\ whitespace_only (query params) = true
   /\ m = lit "The 'query' parameter cannot be empty.").
Proof.
  intros H. split.
  - pose proof (validateToolParams_truthy params m H) as T.
    destruct m; [discriminate T | discriminate].
  - destruct (truthy_nullable
                (SchemaValidator_validate schema_parameters params)) eqn:T.
    + left. unfold validateToolParams in H. now rewrite T in H.
    + right. rewrite (validateToolParams_after_schema params T) in H.
      destruct (whitespace_only (query params)); [|discriminate H].
      inversion H. auto.
Qed.

(** X10: the description shown for a call determines the query: two
    parameter objects with the same description are the same. *)
Theorem getDescription_injective (params1 params2 : DuckDuckGoSearchToolParams) :
  getDescription params1 = getDescription params2 -> params1 = params2.
Proof.
  unfold getDescription. intros H.
  apply app_inv_head in H. apply app_inv_head in H. apply app_inv_tail in H.
  destruct params1, params2. simpl in H. now subst.
Qed.

(** *** Execution *)

(** X3: on every path, a result that [execute] resolves to has a
    non-empty [llmContent] and a non-empty [returnDisplay]; in particular
    the message of the validator shown as [returnDisplay] is never the
    empty string. *)
Theorem result_texts_never_empty (params : DuckDuckGoSearchToolParams)
    (signal : AbortSignal) (ddgs : Provider) (r : DuckDuckGoSearchToolResult) :
  fst (execute params signal ddgs) = Normal r ->
  llmContent r <> [] /\ returnDisplay r <> [].
Proof.
  destruct (execute_outcome params signal ddgs) as [m V|V A|e V A D|v V A D E|rs V A D E];
    cbn [fst]; intros H; inversion H; subst r; simpl;
    try (split; discriminate).
  pose proof (validateToolParams_truthy params m V) as T.
  split; [discriminate|]. destruct m; [discriminate T|discriminate].
Qed.

(** X4: the provider calls of an invocation are none when the validator
    rejects the parameters or the signal is aborted, and otherwise the
    single call with the query as keywords, safe search off and a cap of
    5; there is never a second call. *)
Theorem provider_calls_exact (params : DuckDuckGoSearchToolParams)
    (signal : AbortSignal) (ddgs : Provider) :
  provider_calls (snd (execute params signal ddgs)) =
    match validateToolParams params with
    | Some _ => []
    | None =>
        if aborted signal then []
        else [ {| keywords := query params; safesearch := lit "off";
                  maxResults := 5 |} ]
    end.
Proof.
  destruct (execute_outcome params signal ddgs) as [m V|V A|e V A D|v V A D E|rs V A D E];
    rewrite V; try rewrite A; reflexivity.
Qed.

(** X5: whatever an invocation writes to [console.error] is the text its
    result reports: the logged message is the error text for the query and
    the logged error, [llmContent] is that message behind the prefix
    Error, [returnDisplay] is the fixed failure sentence, and the logged
    error is the cancellation on an aborted signal or else the rejection
    of the provider call. *)
Theorem console_error_matches_result (params : DuckDuckGoSearchToolParams)
    (signal : AbortSignal) (ddgs : Provider) (message : jsstring) (e : Thrown) :
  In (ConsoleError message e) (snd (execute params signal ddgs)) ->
  message =
    lit "Error during DuckDuckGo web search for query " ++ DQ ++ query params
      ++ DQ ++ lit ": " ++ getErrorMessage e /\
  (aborted signal = true /\ e = ErrorObject (lit "Search was cancelled") \/
   provider_rejected (snd (execute params signal ddgs)) e) /\
  exists r,
    fst (execute params signal ddgs) = Normal r /\
    llmContent r = lit "Error: " ++ message /\
    returnDisplay r = lit "Error performing DuckDuckGo web search." /\
    sources r = None.
Proof.
  destruct (execute_outcome params signal ddgs) as [m V|V A|e' V A D|v V A D E|rs V A D E];
    cbn [fst snd]; intros H;
    repeat (destruct H as [H|H]; try discriminate H; try contradiction);
    inversion H; subst; (split; [reflexivity|]); split.
  - left. split; [assumption|reflexivity].
  - eexists; repeat split.
  - right. exists (text_options params). now left.
  - eexists; repeat split.
Qed.

(** X6: an invocation writes to [console.error] exactly once when the
    parameters are valid and either the signal is aborted or the provider
    call is rejected, and not at all otherwise. *)
Theorem console_errors_exact (params : DuckDuckGoSearchToolParams)
    (signal : AbortSignal) (ddgs : Provider) :
  console_errors (snd (execute params signal ddgs)) =
    match validateToolParams params with
    | Some _ => []
    | None =>
        if aborted signal
        then [(error_message (query params) (ErrorObject (lit "Search was cancelled")),
               ErrorObject (lit "Search was cancelled"))]
        else match ddgs {| keywords := query params; safesearch := lit "off";
                           maxResults := 5 |} with
             | Rejected e => [(error_message (query params) e, e)]
             | Fulfilled _ => []
             end
    end.
Proof.
  destruct (execute_outcome params signal ddgs) as [m V|V A|e V A D|v V A D E|rs V A D E];
    rewrite V; try rewrite A; try reflexivity;
    unfold text_options in D; rewrite D; reflexivity.
Qed.

(** X7: when the provider call is fulfilled with a list, the text returned
    for it includes, for the result at every index [i], its numbered title
    line, its URL line, its snippet line (each with the placeholder where
    the field is empty) and its line of the source list; it also includes
    the query. *)
Theorem llmContent_includes_results (params : DuckDuckGoSearchToolParams)
    (signal : AbortSignal) (ddgs : Provider)
    (results : list SearchResult) (i : nat) (result : SearchResult) :
  provider_fulfilled (snd (execute params signal ddgs)) (Some results) ->
  nth_error results i = Some result ->
  exists r,
    fst (execute params signal ddgs) = Normal r /\
    includes (llmContent r)
      (Number_toString (i + 1) ++ lit ". "
         ++ or_else (title result) (lit "Untitled")) = true /\
    includes (llmContent r)
      (lit "URL: " ++ or_else (href result) (lit "No URL")) = true /\
    includes (llmContent r)
      (lit "Snippet: " ++ or_else (body result) (lit "No description")) = true /\
    includes (llmContent r)
      (lit "[" ++ Number_toString (i + 1) ++ lit "] "
         ++ or_else (title result) (lit "Untitled") ++ lit " ("
         ++ or_else (href result) (lit "No URL") ++ lit ")") = true /\
    includes (llmContent r) (query params) = true.
Proof.
  intros Hp Hn.
  destruct (provider_fulfilled_inv params signal ddgs (Some results) Hp)
    as (V & A & D).
  assert (Hne : results <> []) by (destruct results, i; discriminate).
  rewrite (execute_valid params signal V),
    (search_results params signal ddgs results A D Hne).
  eexists; split; [reflexivity|]. cbn [llmContent results_found].
  pose proof (numbered_nth results i 1 result Hn) as Hin.
  replace (1 + i) with (i + 1) in Hin by lia.
  destruct (listing_parts source_line_shown (query params) results
              (i + 1, result) Hin)
    as [(pre & post & B) (pre' & post' & L)].
  repeat split; apply includes_spec.
  - exists pre. eexists. rewrite B. unfold result_block.
    repeat rewrite <- app_assoc. reflexivity.
  - exists (pre ++ Number_toString (i + 1) ++ lit ". "
              ++ or_else (title result) (lit "Untitled") ++ NL ++ lit "   ").
    eexists. rewrite B. unfold result_block.
    repeat rewrite <- app_assoc. reflexivity.
  - exists (pre ++ Number_toString (i + 1) ++ lit ". "
              ++ or_else (title result) (lit "Untitled") ++ NL
              ++ lit "   URL: " ++ or_else (href result) (lit "No URL") ++ NL
              ++ lit "   ").
    eexists. rewrite B. unfold result_block.
    repeat rewrite <- app_assoc. reflexivity.
  - exists pre', post'. rewrite L. unfold source_line_shown.
    repeat rewrite <- app_assoc. reflexivity.
  - exists (lit "DuckDuckGo search results for " ++ DQ). eexists.
    unfold listing. repeat rewrite <- app_assoc. reflexivity.
Qed.

(** X8: a query that is empty or white space only never reaches the
    provider: when the schema check reports nothing, [execute] returns the
    invalid-parameters result with the fixed empty-query message and has
    no effect, whatever the signal and the provider. *)
Theorem blank_query_never_searches (params : DuckDuckGoSearchToolParams)
    (signal : AbortSignal) (ddgs : Provider) :
  truthy_nullable (SchemaValidator_validate schema_parameters params) = false ->
  whitespace_only (query params) = true ->
  execute params signal ddgs =
    (Normal
       {| llmContent :=
            lit "Error: Invalid parameters provided. Reason: The 'query' parameter cannot be empty.";
          returnDisplay := lit "The 'query' parameter cannot be empty.";
          sources := None |},
     []).
Proof.
  intros T W.
  assert (V : validateToolParams params = Some empty_query_message).
  { rewrite (validateToolParams_after_schema params T), W. reflexivity. }
  rewrite (execute_invalid params signal ddgs empty_query_message V).
  reflexivity.
Qed.

(** X9: a query with a code unit that is not white space is searched as it
    is, untrimmed: when the schema check reports nothing and the signal is
    live, the provider is called once with the query itself as keywords,
    and the text returned includes the query itself. *)
Theorem nonblank_query_searched_untrimmed (params : DuckDuckGoSearchToolParams)
    (signal : AbortSignal) (ddgs : Provider) :
  truthy_nullable (SchemaValidator_validate schema_parameters params) = false ->
  whitespace_only (query params) = false ->
  aborted signal = false ->
  provider_calls (snd (execute params signal ddgs)) =
    [ {| keywords := query params; safesearch := lit "off"; maxResults := 5 |} ] /\
  exists r,
    fst (execute params signal ddgs) = Normal r /\
    includes (llmContent r) (query params) = true.
Proof.
  intros T W A.
  assert (V : validateToolParams params = None).
  { rewrite (validateToolParams_after_schema params T), W. reflexivity. }
  destruct (execute_outcome params signal ddgs) as [m V'|V' A'|e _ _ D|v _ _ D E|rs _ _ D E];
    try congruence; (split; [reflexivity|]);
    eexists; (split; [reflexivity|]); apply includes_spec; simpl.
  - exists (lit "Error: Error during DuckDuckGo web search for query " ++ DQ).
    eexists. repeat rewrite <- app_assoc. reflexivity.
  - exists (lit "No search results found for query: " ++ DQ).
    eexists. repeat rewrite <- app_assoc. reflexivity.
  - exists (lit "DuckDuckGo search results for " ++ DQ). eexists.
    unfold listing. repeat rewrite <- app_assoc. reflexivity.
Qed.

(** X11: the provider influences an invocation only through the way it
    settles the one call [execute] makes: two providers that settle the
    call for this query alike give the same result and the same events. *)
Theorem execute_depends_on_one_answer (params : DuckDuckGoSearchToolParams)
    (signal : AbortSignal) (ddgs1 ddgs2 : Provider) :
  ddgs1 {| keywords := query params; safesearch := lit "off"; maxResults := 5 |} =
  ddgs2 {| keywords := query params; safesearch := lit "off"; maxResults := 5 |} ->
  execute params signal ddgs1 = execute params signal ddgs2.
Proof.
  intros H. unfold execute.
  assert (S : search params signal ddgs1 = search params signal ddgs2).
  { change (ddgs1 (text_options params) = ddgs2 (text_options params)) in H.
    destruct (aborted signal) eqn:A.
    { now rewrite (search_aborted params signal ddgs1 A),
        (search_aborted params signal ddgs2 A). }
    destruct (ddgs2 (text_options params)) as [[[|result rest]|]|e] eqn:D.
    - now rewrite (search_empty params signal ddgs1 A H),
        (search_empty params signal ddgs2 A D).
    - rewrite (search_results params signal ddgs1 (result :: rest) A H),
        (search_results params signal ddgs2 (result :: rest) A D)
        by discriminate.
      reflexivity.
    - now rewrite (search_null params signal ddgs1 A H),
        (search_null params signal ddgs2 A D).
    - now rewrite (search_rejected params signal ddgs1 e A H),
        (search_rejected params signal ddgs2 e A D). }
  destruct (validateToolParams params) as [m|]; [|exact S].
  destruct (truthy m); [reflexivity|exact S].
Qed.

(** X12: the text returned starts with the prefix Error exactly when no
    provider call was fulfilled in the invocation, that is after a
    validation error, a cancellation or a rejected provider call. *)
Theorem error_prefix_iff_not_fulfilled (params : DuckDuckGoSearchToolParams)
    (signal : AbortSignal) (ddgs : Provider) :
  exists r,
    fst (execute params signal ddgs) = Normal r /\
    (startsWith (llmContent r) (lit "Error: ") = true <->
     forall v, ~ provider_fulfilled (snd (execute params signal ddgs)) v).
Proof.
  pose proof (provider_fulfilled_inv params signal ddgs) as Inv.
  destruct (execute_outcome params signal ddgs) as [m V|V A|e V A D|v V A D E|rs V A D E];
    eexists; (split; [reflexivity|]); cbn [fst snd] in *.
  - split; [|reflexivity]. intros _ v Hp.
    apply Inv in Hp. destruct Hp as (V' & _). congruence.
  - split; [|reflexivity]. intros _ v Hp.
    apply Inv in Hp. destruct Hp as (_ & A' & _). congruence.
  - split; [|reflexivity]. intros _ v Hp.
    apply Inv in Hp. destruct Hp as (_ & _ & D'). congruence.
  - split; [discriminate|]. intros H. exfalso. apply (H v).
    exists (text_options params). now left.
  - split; [discriminate|]. intros H. exfalso. apply (H (Some rs)).
    exists (text_options params). now left.
Qed.

End Tool.

(* ------------------------------------------------------------------ *)
(** ** The unit tests of the tool, replayed on the embedding *)

Example index_printing :
  Number_toString 1 = lit "1" /\
  Number_toString 10 = lit "10" /\
  Number_toString 305 = lit "305".
Proof. repeat split. Qed.

Example trim_examples :
  trim (lit "  test search ") = lit "test search" /\
  trim (lit "a b") = lit "a b" /\
  trim [9; 10; 160; 8195; 65279]%N = [].
Proof. repeat split. Qed.

Example test_validate_parameters :
  validateToolParams accept_all {| query := lit "test" |} = None /\
  validateToolParams accept_all {| query := [] |} =
    Some (lit "The 'query' parameter cannot be empty.").
Proof. split; reflexivity. Qed.

Example test_execute_search :
  execute accept_all message_of test_search live_signal
    (resolving (Some test_results)) =
  (Normal
     {| llmContent :=
          lit "DuckDuckGo search results for " ++ DQ ++ lit "test search" ++ DQ
            ++ lit ":" ++ NL ++ NL
            ++ lit "1. Test Result 1" ++ NL
            ++ lit "   URL: https://example.com/1" ++ NL
            ++ lit "   Snippet: This is a test result snippet 1" ++ NL ++ NL
            ++ lit "2. Test Result 2" ++ NL
            ++ lit "   URL: https://example.com/2" ++ NL
            ++ lit "   Snippet: This is a test result snippet 2" ++ NL ++ NL
            ++ NL ++ lit "Sources:" ++ NL
            ++ lit "[1] Test Result 1 (https://example.com/1)" ++ NL
            ++ lit "[2] Test Result 2 (https://example.com/2)";
        returnDisplay :=
          lit "Search results for " ++ DQ ++ lit "test search" ++ DQ
            ++ lit " returned.";
        sources := Some test_results |},
   [TextCall {| keywords := lit "test search"; safesearch := lit "off";
                maxResults := 5 |}
      (Fulfilled (Some test_results))]).
Proof. reflexivity. Qed.

Example test_empty_search_results :
  fst (execute accept_all message_of empty_search live_signal
         (resolving (Some []))) =
  Normal
    {| llmContent :=
         lit "No search results found for query: " ++ DQ ++ lit "empty search"
           ++ DQ;
       returnDisplay := lit "No information found.";
       sources := None |}.
Proof. reflexivity. Qed.

Example test_search_errors :
  fst (execute accept_all message_of error_search live_signal
         (rejecting network_error)) =
  Normal
    {| llmContent :=
         lit "Error: Error during DuckDuckGo web search for query " ++ DQ
           ++ lit "error search" ++ DQ ++ lit ": Network error";
       returnDisplay := lit "Error performing DuckDuckGo web search.";
       sources := None |}.
Proof. reflexivity. Qed.

(** A result without title and href is listed as Untitled (No URL) in the
    source list too. *)
Example untitled_source_line :
  exists r,
    fst (execute accept_all message_of test_search live_signal
           (resolving (Some untitled_results))) = Normal r /\
    llmContent r =
      lit "DuckDuckGo search results for " ++ DQ ++ lit "test search" ++ DQ
        ++ lit ":" ++ NL ++ NL
        ++ lit "1. Untitled" ++ NL
        ++ lit "   URL: No URL" ++ NL
        ++ lit "   Snippet: A page without title" ++ NL ++ NL
        ++ NL ++ lit "Sources:" ++ NL
        ++ lit "[1] Untitled (No URL)" /\
    listing source_line_raw (query test_search) untitled_results =
      lit "DuckDuckGo search results for " ++ DQ ++ lit "test search" ++ DQ
        ++ lit ":" ++ NL ++ NL
        ++ lit "1. Untitled" ++ NL
        ++ lit "   URL: No URL" ++ NL
        ++ lit "   Snippet: A page without title" ++ NL ++ NL
        ++ NL ++ lit "Sources:" ++ NL
        ++ lit "[1]  ()".
Proof. eexists; repeat split. Qed.

(* ------------------------------------------------------------------ *)
(** ** The theorems at concrete inputs *)

(** C1 as worded, with the source lines written from the raw title and
    href, fails on a result whose title and href are empty: the code lists
    it as Untitled (No URL). *)
Lemma raw_source_lines_counterexample :
  validateToolParams accept_all test_search = None /\
  provider_fulfilled
    (snd (execute accept_all message_of test_search live_signal
            (resolving (Some untitled_results))))
    (Some untitled_results) /\
  untitled_results <> [] /\
  exists r,
    fst (execute accept_all message_of test_search live_signal
           (resolving (Some untitled_results))) = Normal r /\
    llmContent r <> listing source_line_raw (query test_search) untitled_results.
Proof.
  split; [reflexivity|].
  split; [exists (text_options test_search); left; reflexivity|].
  split; [discriminate|].
  eexists; split; [reflexivity|].
  vm_compute. discriminate.
Qed.

Lemma execute_results_listing_witness :
  validateToolParams accept_all test_search = None /\
  provider_fulfilled
    (snd (execute accept_all message_of test_search live_signal test_provider))
    (Some test_results) /\
  test_results <> [] /\
  exists r,
    fst (execute accept_all message_of test_search live_signal test_provider)
      = Normal r /\
    llmContent r = listing source_line_shown (query test_search) test_results /\
    returnDisplay r =
      lit "Search results for " ++ DQ ++ query test_search ++ DQ
        ++ lit " returned." /\
    sources r = Some test_results.
Proof.
  assert (V : validateToolParams accept_all test_search = None) by reflexivity.
  assert (P : provider_fulfilled
    (snd (execute accept_all message_of test_search live_signal test_provider))
    (Some test_results)).
  { exists (text_options test_search). left. reflexivity. }
  assert (N : test_results <> []) by discriminate.
  split; [exact V|]. split; [exact P|]. split; [exact N|].
  exact (execute_results_listing accept_all message_of test_search live_signal
           test_provider test_results V P N).
Defined.

Lemma provider_failure_absorbed_witness :
  validateToolParams accept_all error_search = None /\
  provider_rejected
    (snd (execute accept_all message_of error_search live_signal
            (rejecting network_error)))
    network_error /\
  exists r,
    fst (execute accept_all message_of error_search live_signal
           (rejecting network_error)) = Normal r /\
    llmContent r =
      lit "Error: Error during DuckDuckGo web search for query " ++ DQ
        ++ query error_search ++ DQ ++ lit ": " ++ message_of network_error /\
    returnDisplay r = lit "Error performing DuckDuckGo web search." /\
    sources r = None.
Proof.
  assert (V : validateToolParams accept_all error_search = None) by reflexivity.
  assert (P : provider_rejected
    (snd (execute accept_all message_of error_search live_signal
            (rejecting network_error)))
    network_error).
  { exists (text_options error_search). left. reflexivity. }
  split; [exact V|]. split; [exact P|].
  exact (provider_failure_absorbed accept_all message_of error_search
           live_signal (rejecting network_error) network_error V P).
Defined.

Lemma validateToolParams_query_witness :
  accept_all schema_parameters test_search = None /\
  accept_all schema_parameters blank_search = None /\
  validateToolParams accept_all test_search = None /\
  validateToolParams accept_all blank_search =
    Some (lit "The 'query' parameter cannot be empty.").
Proof.
  split; [reflexivity|]. split; [reflexivity|]. split.
  - apply (proj1 (validateToolParams_query accept_all test_search eq_refl)).
    vm_compute. discriminate.
  - apply (proj2 (validateToolParams_query accept_all blank_search eq_refl)).
    right. reflexivity.
Defined.

Lemma aborted_signal_is_provider_failure_witness :
  validateToolParams accept_all test_search = None /\
  aborted aborted_signal = true /\
  provider_calls
    (snd (execute accept_all message_of test_search aborted_signal test_provider))
    = [] /\
  fst (execute accept_all message_of test_search aborted_signal test_provider) =
    Normal (provider_failure message_of (query test_search)
              (ErrorObject (lit "Search was cancelled"))) /\
  exists r,
    fst (execute accept_all message_of test_search aborted_signal test_provider)
      = Normal r /\
    returnDisplay r = lit "Error performing DuckDuckGo web search." /\
    sources r = None.
Proof.
  split; [reflexivity|]. split; [reflexivity|].
  exact (aborted_signal_is_provider_failure accept_all message_of test_search
           aborted_signal test_provider eq_refl eq_refl).
Defined.

Lemma invalid_parameters_returned_witness :
  validateToolParams accept_all blank_search =
    Some (lit "The 'query' parameter cannot be empty.") /\
  execute accept_all message_of blank_search live_signal test_provider =
    (Normal {| llmContent :=
                 lit "Error: Invalid parameters provided. Reason: "
                   ++ lit "The 'query' parameter cannot be empty.";
               returnDisplay := lit "The 'query' parameter cannot be empty.";
               sources := None |},
     []) /\
  provider_calls
    (snd (execute accept_all message_of blank_search live_signal test_provider))
    = [].
Proof.
  split; [reflexivity|].
  exact (invalid_parameters_returned accept_all message_of blank_search
           live_signal test_provider
           (lit "The 'query' parameter cannot be empty.") eq_refl).
Defined.

Lemma provider_called_once_with_cap_witness :
  validateToolParams accept_all error_search = None /\
  aborted live_signal = false /\
  provider_calls
    (snd (execute accept_all message_of error_search live_signal test_provider))
    = [ {| keywords := query error_search; safesearch := lit "off";
           maxResults := 5 |} ].
Proof.
  split; [reflexivity|]. split; [reflexivity|].
  exact (provider_called_once_with_cap accept_all message_of error_search
           live_signal test_provider eq_refl eq_refl).
Defined.

Lemma empty_results_outcome_witness :
  validateToolParams accept_all empty_search = None /\
  provider_fulfilled
    (snd (execute accept_all message_of empty_search live_signal
            (resolving (Some []))))
    (Some []) /\
  fst (execute accept_all message_of empty_search live_signal
         (resolving (Some []))) =
    Normal {| llmContent :=
                lit "No search results found for query: " ++ DQ
                  ++ query empty_search ++ DQ;
              returnDisplay := lit "No information found.";
              sources := None |}.
Proof.
  assert (P : provider_fulfilled
    (snd (execute accept_all message_of empty_search live_signal
            (resolving (Some []))))
    (Some [])).
  { exists (text_options empty_search). left. reflexivity. }
  split; [reflexivity|]. split; [exact P|].
  exact (empty_results_outcome accept_all message_of empty_search live_signal
           (resolving (Some [])) eq_refl P).
Defined.

Lemma execute_deterministic_witness :
  query test_search = query {| query := lit "test search" |} /\
  provider_fulfilled
    (snd (execute accept_all message_of test_search live_signal test_provider))
    (Some test_results) /\
  provider_fulfilled
    (snd (execute accept_all message_of {| query := lit "test search" |}
            {| aborted := false |} (resolving (Some test_results))))
    (Some test_results) /\
  exists r1 r2,
    fst (execute accept_all message_of test_search live_signal test_provider)
      = Normal r1 /\
    fst (execute accept_all message_of {| query := lit "test search" |}
           {| aborted := false |} (resolving (Some test_results)))
      = Normal r2 /\
    llmContent r1 = llmContent r2 /\
    returnDisplay r1 = returnDisplay r2.
Proof.
  assert (P1 : provider_fulfilled
    (snd (execute accept_all message_of test_search live_signal test_provider))
    (Some test_results)).
  { exists (text_options test_search). left. reflexivity. }
  assert (P2 : provider_fulfilled
    (snd (execute accept_all message_of {| query := lit "test search" |}
            {| aborted := false |} (resolving (Some test_results))))
    (Some test_results)).
  { exists (text_options test_search). left. reflexivity. }
  split; [reflexivity|]. split; [exact P1|]. split; [exact P2|].
  exact (execute_deterministic accept_all message_of
           test_search {| query := lit "test search" |}
           live_signal {| aborted := false |}
           test_provider (resolving (Some test_results))
           (Some test_results) eq_refl P1 P2).
Defined.

Lemma null_results_outcome_witness :
  provider_fulfilled
    (snd (execute accept_all message_of empty_search live_signal (resolving None)))
    None /\
  fst (execute accept_all message_of empty_search live_signal (resolving None)) =
    Normal {| llmContent :=
                lit "No search results found for query: " ++ DQ
                  ++ query empty_search ++ DQ;
              returnDisplay := lit "No information found.";
              sources := None |} /\
  fst (execute accept_all message_of empty_search live_signal (resolving None)) =
    fst (execute accept_all message_of empty_search live_signal
           (fun _ => Fulfilled (Some []))).
Proof.
  assert (P : provider_fulfilled
    (snd (execute accept_all message_of empty_search live_signal (resolving None)))
    None).
  { exists (text_options empty_search). left. reflexivity. }
  split; [exact P|].
  exact (null_results_outcome accept_all message_of empty_search live_signal
           (resolving None) P).
Defined.

Lemma validation_message_origin_witness :
  validateToolParams accept_all blank_search =
    Some (lit "The 'query' parameter cannot be empty.") /\
  lit "The 'query' parameter cannot be empty." <> [] /\
  (accept_all schema_parameters blank_search =
     Some (lit "The 'query' parameter cannot be empty.") \/
   truthy_nullable (accept_all schema_parameters blank_search) = false
   /\ whitespace_only (query blank_search) = true
   /\ lit "The 'query' parameter cannot be empty." =
        lit "The 'query' parameter cannot be empty.").
Proof.
  split; [reflexivity|].
  exact (validation_message_origin accept_all blank_search
           (lit "The 'query' parameter cannot be empty.") eq_refl).
Defined.

Lemma getDescription_injective_witness :
  getDescription test_search = getDescription {| query := lit "test search" |} /\
  test_search = {| query := lit "test search" |}.
Proof.
  split; [reflexivity|].
  exact (getDescription_injective test_search {| query := lit "test search" |}
           eq_refl).
Defined.

Lemma console_error_matches_result_witness :
  In (ConsoleError
        (lit "Error during DuckDuckGo web search for query " ++ DQ
           ++ lit "error search" ++ DQ ++ lit ": Network error")
        network_error)
     (snd (execute accept_all message_of error_search live_signal
             (rejecting network_error))) /\
  lit "Error during DuckDuckGo web search for query " ++ DQ
    ++ lit "error search" ++ DQ ++ lit ": Network error" =
  lit "Error during DuckDuckGo web search for query " ++ DQ
    ++ query error_search ++ DQ ++ lit ": " ++ message_of network_error /\
  (aborted live_signal = true
   /\ network_error = ErrorObject (lit "Search was cancelled") \/
   provider_rejected
     (snd (execute accept_all message_of error_search live_signal
             (rejecting network_error)))
     network_error) /\
  exists r,
    fst (execute accept_all message_of error_search live_signal
           (rejecting network_error)) = Normal r /\
    llmContent r =
      lit "Error: "
        ++ (lit "Error during DuckDuckGo web search for query " ++ DQ
              ++ lit "error search" ++ DQ ++ lit ": Network error") /\
    returnDisplay r = lit "Error performing DuckDuckGo web search." /\
    sources r = None.
Proof.
  assert (H : In (ConsoleError
        (lit "Error during DuckDuckGo web search for query " ++ DQ
           ++ lit "error search" ++ DQ ++ lit ": Network error")
        network_error)
     (snd (execute accept_all message_of error_search live_signal
             (rejecting network_error)))).
  { right. left. reflexivity. }
  split; [exact H|].
  exact (console_error_matches_result accept_all message_of error_search
           live_signal (rejecting network_error) _ network_error H).
Defined.

Lemma llmContent_includes_results_witness :
  provider_fulfilled
    (snd (execute accept_all message_of test_search live_signal test_provider))
    (Some test_results) /\
  nth_error test_results 1 =
    Some {| title := lit "Test Result 2";
            href := lit "https://example.com/2";
            body := lit "This is a test result snippet 2" |} /\
  exists r,
    fst (execute accept_all message_of test_search live_signal test_provider)
      = Normal r /\
    includes (llmContent r) (lit "2. Test Result 2") = true /\
    includes (llmContent r) (lit "URL: https://example.com/2") = true /\
    includes (llmContent r) (lit "Snippet: This is a test result snippet 2")
      = true /\
    includes (llmContent r) (lit "[2] Test Result 2 (https://example.com/2)")
      = true /\
    includes (llmContent r) (lit "test search") = true.
Proof.
  assert (P : provider_fulfilled
    (snd (execute accept_all message_of test_search live_signal test_provider))
    (Some test_results)).
  { exists (text_options test_search). left. reflexivity. }
  split; [exact P|]. split; [reflexivity|].
  exact (llmContent_includes_results accept_all message_of test_search
           live_signal test_provider test_results 1
           {| title := lit "Test Result 2";
              href := lit "https://example.com/2";
              body := lit "This is a test result snippet 2" |}
           P eq_refl).
Defined.

Lemma blank_query_never_searches_witness :
  truthy_nullable (accept_all schema_parameters blank_search) = false /\
  whitespace_only (query blank_search) = true /\
  execute accept_all message_of blank_search live_signal test_provider =
    (Normal
       {| llmContent :=
            lit "Error: Invalid parameters provided. Reason: The 'query' parameter cannot be empty.";
          returnDisplay := lit "The 'query' parameter cannot be empty.";
          sources := None |},
     []).
Proof.
  split; [reflexivity|]. split; [reflexivity|].
  exact (blank_query_never_searches accept_all message_of blank_search
           live_signal test_provider eq_refl eq_refl).
Defined.

Lemma nonblank_query_searched_untrimmed_witness :
  truthy_nullable (accept_all schema_parameters padded_search) = false /\
  whitespace_only (query padded_search) = false /\
  aborted live_signal = false /\
  provider_calls
    (snd (execute accept_all message_of padded_search live_signal test_provider))
    = [ {| keywords := lit "  test search "; safesearch := lit "off";
           maxResults := 5 |} ] /\
  exists r,
    fst (execute accept_all message_of padded_search live_signal test_provider)
      = Normal r /\
    includes (llmContent r) (lit "  test search ") = true.
Proof.
  split; [reflexivity|]. split; [reflexivity|]. split; [reflexivity|].
  exact (nonblank_query_searched_untrimmed accept_all message_of padded_search
           live_signal test_provider eq_refl eq_refl eq_refl).
Defined.

Lemma execute_depends_on_one_answer_witness :
  test_provider {| keywords := query test_search; safesearch := lit "off";
                   maxResults := 5 |} =
  resolving (Some test_results)
    {| keywords := query test_search; safesearch := lit "off";
       maxResults := 5 |} /\
  execute accept_all message_of test_search live_signal test_provider =
  execute accept_all message_of test_search live_signal
    (resolving (Some test_results)).
Proof.
  split; [reflexivity|].
  exact (execute_depends_on_one_answer accept_all message_of test_search
           live_signal test_provider (resolving (Some test_results)) eq_refl).
Defined.

Lemma sources_present_iff_results_witness :
  exists r,
    fst (execute accept_all message_of test_search live_signal test_provider)
      = Normal r /\
    sources r = Some test_results.
Proof.
  destruct (sources_present_iff_results accept_all message_of test_search
              live_signal test_provider) as (r & Hr & Hiff & _).
  exists r. split; [exact Hr|].
  apply (proj2 (Hiff test_results)).
  split; [reflexivity|]. split; [reflexivity|]. split; [reflexivity|].
  discriminate.
Defined.

Lemma result_texts_never_empty_witness :
  fst (execute accept_all message_of blank_search live_signal test_provider) =
    Normal (invalid_parameters (lit "The 'query' parameter cannot be empty.")) /\
  llmContent (invalid_parameters (lit "The 'query' parameter cannot be empty."))
    <> [] /\
  returnDisplay (invalid_parameters (lit "The 'query' parameter cannot be empty."))
    <> [].
Proof.
  split; [reflexivity|].
  exact (result_texts_never_empty accept_all message_of blank_search
           live_signal test_provider
           (invalid_parameters (lit "The 'query' parameter cannot be empty."))
           eq_refl).
Defined.
